(** * Lazy namespace resolution of [my_framework]

    A model of [core/src/my_framework/__init__.py]: the module-level
    [__getattr__] hook (PEP 562) that maps the virtual attribute [ext] to the
    package [my_framework_ext] and imports it on first access.

    Python values are embedded directly (strings, dictionaries as [gmap],
    exceptions as a small inductive type).  Control flow and the calls into the
    host ([print], [importlib.import_module], reads and writes of the module
    global [_EXTENSION_MAP]) are kept as a statement tree, and [exec] runs a
    tree against a world while recording the host calls it makes, in order.
    The import system is not part of the package: every result below is stated
    for an arbitrary loader, with the properties it needs of the loader spelled
    out, and [cpython_import] is a reference loader that has them. *)

From Stdlib Require Import Ascii String.
From stdpp Require Import gmap strings list.

(** ** Exceptions *)

(** The part of the built-in exception hierarchy that the module can meet. *)
Inductive ExcClass : Type :=
  | BaseException
  | KeyboardInterrupt
  | Exception
  | ImportError
  | ModuleNotFoundError
  | AttributeError
  | LookupError
  | KeyError
  | NameError
  | RuntimeError
  | ValueError
  | SyntaxError.

#[global] Instance ExcClass_eq_dec : EqDecision ExcClass.
Proof. solve_decision. Defined.

(** Direct base class, [None] at the root. *)
Definition base_class (c : ExcClass) : option ExcClass :=
  match c with
  | BaseException => None
  | KeyboardInterrupt => Some BaseException
  | Exception => Some BaseException
  | ImportError => Some Exception
  | ModuleNotFoundError => Some ImportError
  | AttributeError => Some Exception
  | LookupError => Some Exception
  | KeyError => Some LookupError
  | NameError => Some Exception
  | RuntimeError => Some Exception
  | ValueError => Some Exception
  | SyntaxError => Some Exception
  end.

Fixpoint issubclass_upto (depth : nat) (c d : ExcClass) : bool :=
  if decide (c = d) then true
  else match depth, base_class c with
       | S depth', Some b => issubclass_upto depth' b d
       | _, _ => false
       end.

(** [issubclass c d]: the hierarchy above is four levels deep. *)
Definition issubclass (c d : ExcClass) : bool := issubclass_upto 4 c d.

(** An exception instance: its class, its message ([str(e)]) and [__cause__],
    which [raise ... from e] sets. *)
#[warnings="-register-all"]
Inductive PyExc : Type :=
  | mkExc (cls : ExcClass) (msg : string) (cause : option PyExc).

Definition exc_class (e : PyExc) : ExcClass := let 'mkExc c _ _ := e in c.
Definition exc_msg (e : PyExc) : string := let 'mkExc _ m _ := e in m.
Definition exc_cause (e : PyExc) : option PyExc := let 'mkExc _ _ c := e in c.

(** [raise new from e] *)
Definition raise_from (new e : PyExc) : PyExc :=
  mkExc (exc_class new) (exc_msg new) (Some e).

(** [except cls as e] catches [e] when [isinstance(e, cls)]. *)
Definition catches (cls : ExcClass) (e : PyExc) : bool :=
  issubclass (exc_class e) cls.

(** ** Strings *)

(** [needle in haystack] on [str]. *)
Definition contains (needle haystack : string) : Prop :=
  ∃ before after, haystack = before +:+ needle +:+ after.

Definition hex_digit (n : nat) : ascii :=
  match n with
  | 0 => "0" | 1 => "1" | 2 => "2" | 3 => "3" | 4 => "4"
  | 5 => "5" | 6 => "6" | 7 => "7" | 8 => "8" | 9 => "9"
  | 10 => "a" | 11 => "b" | 12 => "c" | 13 => "d" | 14 => "e"
  | _ => "f"
  end%char.

Definition backslash : ascii := "\"%char.
Definition squote : ascii := "'"%char.
Definition dquote : ascii := ascii_of_nat 34.

Fixpoint has_char (c : ascii) (s : string) : bool :=
  match s with
  | EmptyString => false
  | String a rest => if decide (a = c) then true else has_char c rest
  end.

(** Escaping done by [repr] of a [str], for a given quote character.
    Characters are bytes here: printable ASCII is copied, control characters
    are escaped, and bytes from 128 on (text outside ASCII) are copied. *)
Fixpoint repr_escape (quote : ascii) (s : string) : string :=
  match s with
  | EmptyString => EmptyString
  | String a rest =>
      let n := nat_of_ascii a in
      let tail := repr_escape quote rest in
      if decide (a = quote) then String backslash (String a tail)
      else if decide (a = backslash) then String backslash (String backslash tail)
      else if decide (n = 9) then String backslash (String "t" tail)
      else if decide (n = 10) then String backslash (String "n" tail)
      else if decide (n = 13) then String backslash (String "r" tail)
      else if decide (n < 32 ∨ n = 127) then
        String backslash (String "x"
          (String (hex_digit (n / 16)) (String (hex_digit (n mod 16)) tail)))
      else String a tail
  end.

(** [repr(s)], the [!r] conversion of an f-string: single quotes, unless the
    text has a single quote and no double quote. *)
Definition repr (s : string) : string :=
  let quote := if has_char squote s && negb (has_char dquote s)
               then dquote else squote in
  String quote (repr_escape quote s +:+ String quote EmptyString).

(** ** Worlds *)

(** A loaded module, the namespace handle: its identity ([id(module)]) and
    its [__name__]. *)
Record PyModule : Type := mkModule {
  mod_id : N;
  mod_name : string;
}.

#[global] Instance PyModule_eq_dec : EqDecision PyModule.
Proof. solve_decision. Defined.

(** What the host holds: the lines written to standard output,
    [sys.modules], and the identifiers whose module body has been run, one
    entry per run. *)
Record Host : Type := mkHost {
  stdout : list string;
  sys_modules : gmap string PyModule;
  initialised : list string;
}.

(** The host together with the one global of [my_framework] that the code
    reads, [_EXTENSION_MAP]. *)
Record World : Type := mkWorld {
  extension_map : gmap string string;
  host : Host;
}.

(** [importlib.import_module]: the unit or the exception, and the host after
    the attempt.  It runs code of other modules, which is given the host and
    not the globals of [my_framework]. *)
Definition Loader : Type := string → Host → (PyExc + PyModule) * Host.

(** [print(line)] *)
Definition host_print (line : string) (h : Host) : Host :=
  {| stdout := stdout h ++ [line];
     sys_modules := sys_modules h;
     initialised := initialised h |}.

(** ** Statements *)

(** A block of statements whose [return] carries an [R].  [Import] binds
    the unit for the statements that follow it; [Print] always completes (a
    write to standard output that fails is not modelled). *)
Inductive Stmt (R : Type) : Type :=
  | Skip
  | Return (r : R)
  | Raise (e : PyExc)
  | Seq (s1 s2 : Stmt R)
  | Print (line : string)
  | Import (pkg : string) (k : PyModule → Stmt R)
  | ReadMap (k : gmap string string → Stmt R)
  | WriteMap (m : gmap string string)
  | Try (body : Stmt R) (cls : ExcClass) (handler : PyExc → Stmt R).

Arguments Skip {R}.
Arguments Return {R} r.
Arguments Raise {R} e.
Arguments Seq {R} s1 s2.
Arguments Print {R} line.
Arguments Import {R} pkg k.
Arguments ReadMap {R} k.
Arguments WriteMap {R} m.
Arguments Try {R} body cls handler.

Notation "s1 ;; s2" := (Seq s1 s2)
  (at level 100, s2 at level 200, right associativity).

(** How a block ends. *)
Inductive Outcome (R : Type) : Type :=
  | Fell
  | Returned (r : R)
  | Raised (e : PyExc).

Arguments Fell {R}.
Arguments Returned {R} r.
Arguments Raised {R} e.

(** The calls into the host that a run makes. *)
Inductive Event : Type :=
  | EvPrint (line : string)
  | EvImport (pkg : string).

#[global] Instance Event_eq_dec : EqDecision Event.
Proof. solve_decision. Defined.

Section Exec.
Context {R : Type}.
Variable import_module : Loader.

Fixpoint exec (s : Stmt R) (w : World) : list Event * Outcome R * World :=
  match s with
  | Skip => ([], Fell, w)
  | Return r => ([], Returned r, w)
  | Raise e => ([], Raised e, w)
  | Seq s1 s2 =>
      let '(ev1, o1, w1) := exec s1 w in
      match o1 with
      | Fell => let '(ev2, o2, w2) := exec s2 w1 in (ev1 ++ ev2, o2, w2)
      | _ => (ev1, o1, w1)
      end
  | Print line =>
      ([EvPrint line], Fell,
       {| extension_map := extension_map w;
          host := host_print line (host w) |})
  | Import pkg k =>
      let '(r, h1) := import_module pkg (host w) in
      let w1 := {| extension_map := extension_map w; host := h1 |} in
      match r with
      | inl e => ([EvImport pkg], Raised e, w1)
      | inr module =>
          let '(ev, o, w2) := exec (k module) w1 in (EvImport pkg :: ev, o, w2)
      end
  | ReadMap k => exec (k (extension_map w)) w
  | WriteMap m => ([], Fell, {| extension_map := m; host := host w |})
  | Try body cls handler =>
      let '(ev1, o1, w1) := exec body w in
      match o1 with
      | Raised e =>
          if catches cls e
          then let '(ev2, o2, w2) := exec (handler e) w1 in
               (ev1 ++ ev2, o2, w2)
          else (ev1, o1, w1)
      | _ => (ev1, o1, w1)
      end
  end.

End Exec.

(** [d[key]], with the [KeyError] of a missing key. *)
Definition subscript {R : Type} (d : gmap string string) (key : string)
    (k : string → Stmt R) : Stmt R :=
  match d !! key with
  | Some v => k v
  | None => Raise (mkExc KeyError (repr key) None)
  end.

(** ** The module [my_framework] *)

(** [__name__] inside the package. *)
Definition __name__ : string := "my_framework".

(** The dictionary literal bound to [_EXTENSION_MAP]. *)
Definition _EXTENSION_MAP : gmap string string :=
  {[ "ext" := "my_framework_ext" ]}.

(** f"... Lazily importing '{package_name}' for namespace '{name}' ..." *)
Definition lazily_importing (package_name name : string) : string :=
  "... Lazily importing '" +:+ package_name +:+ "' for namespace '" +:+ name
  +:+ "' ...".

(** f"Missing extension! To use 'my_framework.{name}', "
    f"please install '{package_name}'." *)
Definition missing_extension (name package_name : string) : string :=
  "Missing extension! To use 'my_framework." +:+ name +:+ "', "
  +:+ "please install '" +:+ package_name +:+ "'.".

(** f"module {__name__!r} has no attribute {name!r}" *)
Definition no_attribute (name : string) : string :=
  "module " +:+ repr __name__ +:+ " has no attribute " +:+ repr name.

Definition __getattr__ (name : string) : Stmt PyModule :=
  ReadMap (fun globals_map =>
    if bool_decide (is_Some (globals_map !! name)) then
      ReadMap (fun globals_map' =>
        subscript globals_map' name (fun package_name =>
          Try
            (Print (lazily_importing package_name name);;
             Import package_name (fun module =>
             Return module))
            ImportError
            (fun e =>
               Raise (raise_from
                        (mkExc ImportError
                               (missing_extension name package_name) None)
                        e))))
    else Skip);;
  Raise (mkExc AttributeError (no_attribute name) None).

(** The last block of the file: [if False: from my_framework_ext import *]. *)
Definition type_hint_block : Stmt unit :=
  if false then Import "my_framework_ext" (fun _ => Skip) else Skip.

(** The body of the module, run once when [my_framework] is imported:
    the three imports, the assignment of the dictionary, the [def] (which
    only binds the function) and the block under [if False]. *)
Definition module_body : Stmt unit :=
  Import "importlib" (fun _ => Skip);;
  Import "sys" (fun _ => Skip);;
  Import "typing" (fun _ => Skip);;
  WriteMap _EXTENSION_MAP;;
  Skip;;
  type_hint_block.

(** Attribute accesses one after the other, each through [__getattr__], the
    outcomes dropped. *)
Fixpoint accesses (import_module : Loader) (names : list string) (w : World)
    : World :=
  match names with
  | [] => w
  | name :: rest =>
      accesses import_module rest (exec import_module (__getattr__ name) w).2
  end.

(** ** The loader *)

(** How often the body of [pkg] has been run. *)
Definition init_count (pkg : string) (h : Host) : nat :=
  length (filter (λ id, id = pkg) (initialised h)).

(** A loader memoizes by identifier: a registered identifier is answered
    from [sys.modules] and nothing is run; a load that succeeds leaves the
    unit registered, and when the identifier was not registered before, the
    body of the module has been run once. *)
Record memoizes (L : Loader) : Prop := {
  memo_hit : ∀ pkg h m,
    sys_modules h !! pkg = Some m → L pkg h = (inr m, h);
  memo_registers : ∀ pkg h m h',
    L pkg h = (inr m, h') → sys_modules h' !! pkg = Some m;
  memo_runs_once : ∀ pkg h m h',
    sys_modules h !! pkg = None → L pkg h = (inr m, h') →
    init_count pkg h' = S (init_count pkg h);
}.

(** A load of [pkg] that fails registers nothing. *)
Definition failure_keeps_registry (L : Loader) (pkg : string) : Prop :=
  ∀ h e h', L pkg h = (inl e, h') → sys_modules h' = sys_modules h.

(** What is installed for an identifier: the module object that importing
    it produces, and the exception its body raises, if any. *)
Record Source : Type := mkSource {
  src_module : PyModule;
  src_error : option PyExc;
}.

(** A reference loader after CPython's: [sys.modules] first, then the
    finders; a body that raises leaves no entry behind. *)
Definition cpython_import (installed : gmap string Source) : Loader :=
  fun pkg h =>
    match sys_modules h !! pkg with
    | Some m => (inr m, h)
    | None =>
        match installed !! pkg with
        | None =>
            (inl (mkExc ModuleNotFoundError
                        ("No module named " +:+ repr pkg) None), h)
        | Some src =>
            let ran := initialised h ++ [pkg] in
            match src_error src with
            | Some e =>
                (inl e, {| stdout := stdout h;
                           sys_modules := sys_modules h;
                           initialised := ran |})
            | None =>
                (inr (src_module src),
                 {| stdout := stdout h;
                    sys_modules := <[pkg := src_module src]> (sys_modules h);
                    initialised := ran |})
            end
        end
    end.

(** ** A concrete installation, for the examples *)

Definition plain_module (id : N) (name : string) : Source :=
  {| src_module := {| mod_id := id; mod_name := name |}; src_error := None |}.

(** The three standard modules that [my_framework] imports. *)
Definition standard_library : gmap string Source :=
  {[ "importlib" := plain_module 10 "importlib";
     "sys" := plain_module 11 "sys";
     "typing" := plain_module 12 "typing" ]}.

Definition ext_module : PyModule :=
  {| mod_id := 1; mod_name := "my_framework_ext" |}.

(** [my_framework_ext] is installed and its body runs through. *)
Definition with_extension : gmap string Source :=
  <[ "my_framework_ext" :=
       {| src_module := ext_module; src_error := None |} ]> standard_library.

Definition boom : PyExc := mkExc RuntimeError "boom" None.

(** [my_framework_ext] is installed and its body raises [RuntimeError]. *)
Definition broken_extension : gmap string Source :=
  <[ "my_framework_ext" :=
       {| src_module := ext_module; src_error := Some boom |} ]>
  standard_library.

(** [my_framework_ext] is not installed. *)
Definition without_extension : gmap string Source := standard_library.

(** Before [my_framework] is imported: nothing printed, nothing loaded. *)
Definition blank : World :=
  {| extension_map := ∅;
     host := {| stdout := []; sys_modules := ∅; initialised := [] |} |}.

(** [my_framework] has been imported, no attribute read yet. *)
Definition fresh : World :=
  {| extension_map := _EXTENSION_MAP;
     host := {| stdout := []; sys_modules := ∅; initialised := [] |} |}.

(** ** Notions used in the statements *)

(** The two calls into the host that an access of a mapped name makes. *)
Definition trace_of (package_name name : string) : list Event :=
  [EvPrint (lazily_importing package_name name); EvImport package_name].

(** What a load leaves alone for [pkg]: its entry of [sys.modules] and the
    number of runs of its body. *)
Definition untouched (pkg : string) (h h' : Host) : Prop :=
  sys_modules h' !! pkg = sys_modules h !! pkg
  ∧ init_count pkg h' = init_count pkg h.

(** ** Sequences of accesses, with their outcomes *)

(** What each access of a sequence did: the calls it made into the host and
    how it ended.  The world is threaded as in [accesses]. *)
Fixpoint access_log (import_module : Loader) (names : list string)
    (w : World) : list (list Event * Outcome PyModule) :=
  match names with
  | [] => []
  | name :: rest =>
      let r := exec import_module (__getattr__ name) w in
      r.1 :: access_log import_module rest r.2
  end.

(** The calls that an access of [name] makes when the dictionary is [d]. *)
Definition calls_for (d : gmap string string) (name : string) : list Event :=
  match d !! name with
  | Some package_name => trace_of package_name name
  | None => []
  end.

(** ** Names whose [repr] is the name between single quotes *)

(** Printable ASCII other than the single quote and the backslash; every
    character of a Python identifier written in ASCII is one. *)
Definition plain_char (a : ascii) : bool :=
  bool_decide (32 ≤ nat_of_ascii a < 127)
  && negb (bool_decide (a = squote))
  && negb (bool_decide (a = backslash)).

Fixpoint plain (s : string) : bool :=
  match s with
  | EmptyString => true
  | String a rest => plain_char a && plain rest
  end.

(** ** What the loader does to entries of other identifiers *)

(** Loading [id] leaves the entry of [pkg] in [sys.modules] as it is. *)
Definition leaves_alone (L : Loader) (id pkg : string) : Prop :=
  ∀ h, sys_modules (L id h).2 !! pkg = sys_modules h !! pkg.

(** A load of [pkg] that succeeds leaves the unit registered. *)
Definition registers (L : Loader) (pkg : string) : Prop :=
  ∀ h m h', L pkg h = (inr m, h') → sys_modules h' !! pkg = Some m.

(** ** The script [demo.py] *)

(** A run of script code: the calls into the host, the value or the
    exception that ends the run, and the world after it. *)
Definition Script (A : Type) : Type :=
  World → list Event * (PyExc + A) * World.

#[global] Instance script_ret : MRet Script :=
  λ A (a : A) (w : World), ([], inr a, w).

#[global] Instance script_bind : MBind Script :=
  λ A B (f : A → Script B) (m : Script A) (w : World),
    let '(ev1, r, w1) := m w in
    match r with
    | inl e => (ev1, inl e, w1)
    | inr a => let '(ev2, r2, w2) := f a w1 in (ev1 ++ ev2, r2, w2)
    end.

(** [raise e] *)
Definition script_raise {A : Type} (e : PyExc) : Script A :=
  λ w, ([], inl e, w).

(** [key in sys.modules] *)
Definition in_sys_modules (key : string) : Script bool :=
  λ w, ([], inr (bool_decide (is_Some (sys_modules (host w) !! key))), w).

(** A call into the code of another package, which is given the host. *)
Definition call {A : Type} (f : Host → (PyExc + A) * Host) : Script A :=
  λ w, let '(r, h') := f (host w) in
       ([], r, {| extension_map := extension_map w; host := h' |}).

(** [str(b)] of a [bool] *)
Definition str_bool (b : bool) : string := if b then "True" else "False".

Definition newline : string := String (ascii_of_nat 10) EmptyString.

(** print("   [Check] Is extension loaded in sys.modules?", loaded): the two
    arguments, with the space that [print] puts between them. *)
Definition check_line (loaded : bool) : string :=
  "   [Check] Is extension loaded in sys.modules?" +:+ " "
  +:+ str_bool loaded.

Section Demo.
Variable import_module : Loader.

(** The module object that importing [my_framework] creates. *)
Variable framework_module : PyModule.

(** The code of [my_framework_ext], which is another package:
    [SuperTool()] looked up on the unit and called, and [tool.run()]
    formatted by the f-string. *)
Variable Tool : Type.
Variable SuperTool : PyModule → Host → (PyExc + Tool) * Host.
Variable run : Tool → Host → (PyExc + string) * Host.

(** A block run where a value is expected: falling off the end gives
    [None]. *)
Definition of_stmt {R : Type} (s : Stmt R) : Script (option R) :=
  λ w, let '(ev, o, w') := exec import_module s w in
       match o with
       | Fell => (ev, inr None, w')
       | Returned r => (ev, inr (Some r), w')
       | Raised e => (ev, inl e, w')
       end.

(** [print(line)] *)
Definition say (line : string) : Script unit :=
  _ ← of_stmt (Print line : Stmt unit); mret tt.

(** [import id] *)
Definition import_ (id : string) : Script unit :=
  _ ← of_stmt (Import id (fun _ => Skip) : Stmt unit); mret tt.

(** [import my_framework]: nothing is run when the package is registered;
    otherwise the module is registered, its body is run, and a body that
    raises takes the entry away again. *)
Definition import_my_framework : Script unit :=
  λ w,
    match sys_modules (host w) !! "my_framework" with
    | Some _ => ([EvImport "my_framework"], inr tt, w)
    | None =>
        let w0 :=
          {| extension_map := extension_map w;
             host :=
               {| stdout := stdout (host w);
                  sys_modules :=
                    <["my_framework" := framework_module]>
                      (sys_modules (host w));
                  initialised := initialised (host w) ++ ["my_framework"] |}
          |} in
        let '(ev, o, w1) := exec import_module module_body w0 in
        match o with
        | Raised e =>
            (EvImport "my_framework" :: ev, inl e,
             {| extension_map := extension_map w1;
                host :=
                  {| stdout := stdout (host w1);
                     sys_modules := delete "my_framework" (sys_modules (host w1));
                     initialised := initialised (host w1) |} |})
        | _ => (EvImport "my_framework" :: ev, inr tt, w1)
        end
    end.

(** [my_framework.name] for a name that the module body does not bind:
    the lookup goes to [__getattr__]. *)
Definition attribute (name : string) : Script (option PyModule) :=
  of_stmt (__getattr__ name).

Definition demo : Script unit :=
  _ ← import_ "sys";
  _ ← import_ "time";
  _ ← say "1. Importing core framework...";
  _ ← import_my_framework;
  loaded ← in_sys_modules "my_framework_ext";
  _ ← say (check_line loaded);
  _ ← say (newline +:+ "2. Doing core work (no extension needed)...");
  _ ← say (newline +:+ "3. Accessing extension for the first time...");
  ext ← attribute "ext";
  tool ← match ext with
         | Some ext_unit => call (SuperTool ext_unit)
         | None =>
             script_raise
               (mkExc AttributeError
                      "'NoneType' object has no attribute 'SuperTool'" None)
         end;
  loaded' ← in_sys_modules "my_framework_ext";
  _ ← say (check_line loaded');
  result ← call (run tool);
  say (newline +:+ "4. Result: " +:+ result).

End Demo.

(** The extension of the examples: [SuperTool()] builds a tool and
    [tool.run()] gives a text; neither touches the host. *)
Definition example_SuperTool (m : PyModule) (h : Host)
    : (PyExc + N) * Host := (inr (mod_id m), h).

Definition example_run (tool : N) (h : Host) : (PyExc + string) * Host :=
  (inr "done", h).

Definition my_framework_module : PyModule :=
  {| mod_id := 2; mod_name := "my_framework" |}.

(** The standard library with [time], as the script needs it. *)
Definition script_library : gmap string Source :=
  <[ "time" := plain_module 13 "time" ]> standard_library.

(** The same with [my_framework_ext] installed. *)
Definition script_library_with_extension : gmap string Source :=
  <[ "my_framework_ext" :=
       {| src_module := ext_module; src_error := None |} ]> script_library.

(** The calls of the script up to the request for the extension. *)
Definition demo_calls_to_access : list Event :=
  [EvImport "sys"; EvImport "time";
   EvPrint "1. Importing core framework...";
   EvImport "my_framework";
   EvImport "importlib"; EvImport "sys"; EvImport "typing";
   EvPrint (check_line false);
   EvPrint (newline +:+ "2. Doing core work (no extension needed)...");
   EvPrint (newline +:+ "3. Accessing extension for the first time...");
   EvPrint (lazily_importing "my_framework_ext" "ext");
   EvImport "my_framework_ext"].

(** ** Strings: lemmas *)

Example repr_plain : repr "ext" = "'ext'".
Proof. reflexivity. Qed.

Example ModuleNotFoundError_is_ImportError :
  issubclass ModuleNotFoundError ImportError = true
  ∧ issubclass AttributeError ImportError = false
  ∧ issubclass ImportError AttributeError = false.
Proof. repeat split. Qed.

Lemma append_assoc (a b c : string) : (a +:+ b) +:+ c = a +:+ (b +:+ c).
Proof.
  induction a as [|x a IH]; [done|].
  change (String x ((a +:+ b) +:+ c) = String x (a +:+ b +:+ c)).
  by rewrite IH.
Qed.

Lemma contains_middle (a s b : string) : contains s (a +:+ s +:+ b).
Proof. by exists a, b. Qed.

Lemma lazily_importing_names_package (package_name name : string) :
  contains package_name (lazily_importing package_name name).
Proof. apply contains_middle. Qed.

Lemma lazily_importing_names_attribute (package_name name : string) :
  contains name (lazily_importing package_name name).
Proof.
  exists ("... Lazily importing '" +:+ package_name +:+ "' for namespace '"),
    "' ...".
  unfold lazily_importing. by rewrite !append_assoc.
Qed.

Lemma missing_extension_names_attribute (name package_name : string) :
  contains name (missing_extension name package_name).
Proof. apply contains_middle. Qed.

Lemma missing_extension_names_package (name package_name : string) :
  contains package_name (missing_extension name package_name).
Proof.
  exists ("Missing extension! To use 'my_framework." +:+ name +:+ "', "
          +:+ "please install '"), "'.".
  unfold missing_extension. by rewrite !append_assoc.
Qed.

(** ** The reference loader meets the contracts *)

Lemma init_count_print (pkg line : string) (h : Host) :
  init_count pkg (host_print line h) = init_count pkg h.
Proof. reflexivity. Qed.

Lemma cpython_memoizes (installed : gmap string Source) :
  memoizes (cpython_import installed).
Proof.
  split; unfold cpython_import.
  - intros pkg h m Hm. by rewrite Hm.
  - intros pkg h m h' H. repeat case_match; simplify_eq; simpl; [done|].
    by rewrite lookup_insert_eq.
  - intros pkg h m h' Hnone H. rewrite Hnone in H.
    repeat case_match; simplify_eq.
    unfold init_count; simpl.
    rewrite filter_app, length_app. simpl.
    rewrite filter_cons_True by done. simpl. lia.
Qed.

Lemma cpython_failure_keeps_registry (installed : gmap string Source)
    (pkg : string) :
  failure_keeps_registry (cpython_import installed) pkg.
Proof.
  intros h e h' H. unfold cpython_import in H.
  repeat case_match; by simplify_eq.
Qed.

(** ** One access, unfolded *)

(** A name of the map: the line is printed, the loader is asked once, and
    the result is the unit, the translated [ImportError], or the exception
    as it came. *)
Lemma getattr_known (L : Loader) (name pkg : string) (w : World) :
  extension_map w !! name = Some pkg →
  exec L (__getattr__ name) w =
    let '(r, h1) := L pkg (host_print (lazily_importing pkg name) (host w)) in
    match r with
    | inr module =>
        (trace_of pkg name, Returned module,
         {| extension_map := extension_map w; host := h1 |})
    | inl e =>
        if catches ImportError e
        then (trace_of pkg name,
              Raised (mkExc ImportError (missing_extension name pkg) (Some e)),
              {| extension_map := extension_map w; host := h1 |})
        else (trace_of pkg name, Raised e,
              {| extension_map := extension_map w; host := h1 |})
    end.
Proof.
  intros Hk. unfold __getattr__, subscript. simpl. rewrite Hk.
  rewrite bool_decide_eq_true_2 by eauto. simpl. rewrite Hk. simpl.
  destruct (L pkg _) as [[e|module] h1]; simpl; [|done].
  by destruct (catches ImportError e).
Qed.

(** Any other name: nothing is printed or loaded. *)
Lemma getattr_unknown (L : Loader) (name : string) (w : World) :
  extension_map w !! name = None →
  exec L (__getattr__ name) w =
    ([], Raised (mkExc AttributeError (no_attribute name) None), w).
Proof.
  intros Hk. unfold __getattr__. simpl. rewrite Hk.
  rewrite bool_decide_eq_false_2; [done|]. by intros [? ?].
Qed.

Lemma getattr_keeps_map (L : Loader) (name : string) (w : World) :
  extension_map (exec L (__getattr__ name) w).2 = extension_map w.
Proof.
  destruct (extension_map w !! name) as [pkg|] eqn:Hk.
  - rewrite (getattr_known L name pkg w Hk).
    destruct (L pkg _) as [[e|module] h1]; simpl; [|done].
    by destruct (catches ImportError e).
  - by rewrite (getattr_unknown L name w Hk).
Qed.

Lemma accesses_keep_map (L : Loader) (names : list string) (w : World) :
  extension_map (accesses L names w) = extension_map w.
Proof.
  revert w. induction names as [|name rest IH]; intros w; [done|].
  cbn [accesses]. rewrite IH. apply getattr_keeps_map.
Qed.

(** ** The module body, unfolded *)

(** The body asks the loader for the three standard modules, in this order,
    and stops at the first that fails. *)
Lemma module_body_events (L : Loader) (w : World) :
  (exec L module_body w).1.1
  ∈ [ [EvImport "importlib"];
      [EvImport "importlib"; EvImport "sys"];
      [EvImport "importlib"; EvImport "sys"; EvImport "typing"] ].
Proof.
  unfold module_body, type_hint_block. simpl.
  destruct (L "importlib" (host w)) as [[e1|m1] h1]; simpl; [set_solver|].
  destruct (L "sys" h1) as [[e2|m2] h2]; simpl; [set_solver|].
  destruct (L "typing" h2) as [[e3|m3] h3]; simpl; set_solver.
Qed.

(** The host after the body is the host after the last load attempted. *)
Lemma module_body_host (L : Loader) (w : World) :
  let h1 := (L "importlib" (host w)).2 in
  let h2 := (L "sys" h1).2 in
  let h3 := (L "typing" h2).2 in
  host (exec L module_body w).2 ∈ [h1; h2; h3].
Proof.
  unfold module_body, type_hint_block. simpl.
  destruct (L "importlib" (host w)) as [[e1|m1] h1]; simpl; [set_solver|].
  destruct (L "sys" h1) as [[e2|m2] h2]; simpl; [set_solver|].
  destruct (L "typing" h2) as [[e3|m3] h3]; simpl; set_solver.
Qed.

(** A body that runs to its end has bound the dictionary. *)
Lemma module_body_binds_map (L : Loader) (w : World)
    (ev : list Event) (w0 : World) :
  exec L module_body w = (ev, Fell, w0) →
  extension_map w0 = _EXTENSION_MAP.
Proof.
  unfold module_body, type_hint_block. simpl.
  destruct (L "importlib" (host w)) as [[e1|m1] h1]; simpl; [done|].
  destruct (L "sys" h1) as [[e2|m2] h2]; simpl; [done|].
  destruct (L "typing" h2) as [[e3|m3] h3]; simpl; [done|].
  intros H. by simplify_eq.
Qed.

Lemma cpython_import_untouched (installed : gmap string Source)
    (id pkg : string) (h : Host) :
  id ≠ pkg → untouched pkg h (cpython_import installed id h).2.
Proof.
  intros Hne. unfold untouched, cpython_import, init_count.
  repeat case_match; simpl; try done.
  - rewrite filter_app, filter_cons_False, filter_nil, app_nil_r by done.
    done.
  - rewrite lookup_insert_ne by done.
    rewrite filter_app, filter_cons_False, filter_nil, app_nil_r by done.
    done.
Qed.

(** ** Unknown names *)

(** C2: for a name that is not a key of the map, [__getattr__] raises
    [AttributeError]; the run makes no call into the host, so the loader is
    asked for no identifier at all, and the world is as it was. *)
Theorem unknown_name_raises_AttributeError
    (L : Loader) (name : string) (w : World) :
  extension_map w !! name = None →
  ∃ e,
    exec L (__getattr__ name) w = ([], Raised e, w)
    ∧ exc_class e = AttributeError
    ∧ ∀ pkg, EvImport pkg ∉ (exec L (__getattr__ name) w).1.1.
Proof.
  intros Hk. rewrite (getattr_unknown L name w Hk).
  eexists. split; [reflexivity|]. split; [reflexivity|].
  intros pkg Hin. simpl in Hin. by apply not_elem_of_nil in Hin.
Qed.

Lemma unknown_name_raises_AttributeError_witness :
  ∃ e,
    exec (cpython_import with_extension) (__getattr__ "missing_name") fresh
    = ([], Raised e, fresh)
    ∧ exc_class e = AttributeError
    ∧ ∀ pkg, EvImport pkg ∉
        (exec (cpython_import with_extension) (__getattr__ "missing_name")
              fresh).1.1.
Proof.
  apply (unknown_name_raises_AttributeError
           (cpython_import with_extension) "missing_name" fresh).
  reflexivity.
Defined.

(** ** Successful loads *)

(** C4: when the loader returns a unit for the mapped identifier,
    [__getattr__] returns that very unit, and the world it leaves is the
    loader's. *)
Theorem getattr_returns_loaded_unit
    (L : Loader) (name pkg : string) (w : World) (module : PyModule)
    (h' : Host) :
  extension_map w !! name = Some pkg →
  L pkg (host_print (lazily_importing pkg name) (host w)) = (inr module, h') →
  exec L (__getattr__ name) w
  = (trace_of pkg name, Returned module,
     {| extension_map := extension_map w; host := h' |}).
Proof.
  intros Hk Hload. rewrite (getattr_known L name pkg w Hk). by rewrite Hload.
Qed.

Lemma getattr_returns_loaded_unit_witness :
  exec (cpython_import with_extension) (__getattr__ "ext") fresh
  = (trace_of "my_framework_ext" "ext", Returned ext_module,
     {| extension_map := extension_map fresh;
        host :=
          {| stdout := [lazily_importing "my_framework_ext" "ext"];
             sys_modules := {[ "my_framework_ext" := ext_module ]};
             initialised := ["my_framework_ext"] |} |}).
Proof.
  apply (getattr_returns_loaded_unit
           (cpython_import with_extension) "ext" "my_framework_ext" fresh);
    reflexivity.
Defined.

(** ** Failed loads *)

(** C10: an exception of the loader that [except ImportError] does not catch
    leaves [__getattr__] as it is: same class, same message, same cause. *)
Theorem other_failures_propagate
    (L : Loader) (name pkg : string) (w : World) (e : PyExc) (h' : Host) :
  extension_map w !! name = Some pkg →
  L pkg (host_print (lazily_importing pkg name) (host w)) = (inl e, h') →
  catches ImportError e = false →
  exec L (__getattr__ name) w
  = (trace_of pkg name, Raised e,
     {| extension_map := extension_map w; host := h' |}).
Proof.
  intros Hk Hload Hcls. rewrite (getattr_known L name pkg w Hk).
  by rewrite Hload, Hcls.
Qed.

Lemma other_failures_propagate_witness :
  exec (cpython_import broken_extension) (__getattr__ "ext") fresh
  = (trace_of "my_framework_ext" "ext", Raised boom,
     {| extension_map := extension_map fresh;
        host :=
          {| stdout := [lazily_importing "my_framework_ext" "ext"];
             sys_modules := ∅;
             initialised := ["my_framework_ext"] |} |}).
Proof.
  apply (other_failures_propagate
           (cpython_import broken_extension) "ext" "my_framework_ext" fresh);
    reflexivity.
Defined.

(** C1, as stated, at a load that fails with [RuntimeError]: the package is
    installed and its body raises; [__getattr__ "ext"] then raises that
    [RuntimeError], which is no [ImportError]. *)
Lemma failed_load_not_always_extension_missing :
  extension_map fresh !! "ext" = Some "my_framework_ext"
  ∧ (cpython_import broken_extension "my_framework_ext"
       (host_print (lazily_importing "my_framework_ext" "ext") (host fresh))).1
    = inl boom
  ∧ (exec (cpython_import broken_extension) (__getattr__ "ext") fresh).1.2
    = Raised boom
  ∧ exc_class boom = RuntimeError
  ∧ catches ImportError boom = false.
Proof. repeat split; reflexivity. Qed.

(** C1, amended: when the load of the mapped identifier fails with an
    [ImportError] (or a subclass, such as [ModuleNotFoundError]),
    [__getattr__] raises an [ImportError] of its own: [except ImportError]
    catches it, [except AttributeError] does not, its message has the
    attribute name and the identifier in it, and its [__cause__] is the
    exception of the load. *)
Theorem import_failure_raises_extension_missing
    (L : Loader) (name pkg : string) (w : World) (e : PyExc) (h' : Host) :
  extension_map w !! name = Some pkg →
  L pkg (host_print (lazily_importing pkg name) (host w)) = (inl e, h') →
  catches ImportError e = true →
  ∃ x,
    exec L (__getattr__ name) w
    = (trace_of pkg name, Raised x,
       {| extension_map := extension_map w; host := h' |})
    ∧ exc_class x = ImportError
    ∧ catches ImportError x = true
    ∧ catches AttributeError x = false
    ∧ contains name (exc_msg x)
    ∧ contains pkg (exc_msg x)
    ∧ exc_cause x = Some e.
Proof.
  intros Hk Hload Hcls. rewrite (getattr_known L name pkg w Hk).
  rewrite Hload, Hcls.
  eexists. split; [reflexivity|]. simpl.
  repeat split.
  - apply missing_extension_names_attribute.
  - apply missing_extension_names_package.
Qed.

Lemma import_failure_raises_extension_missing_witness :
  ∃ x,
    exec (cpython_import without_extension) (__getattr__ "ext") fresh
    = (trace_of "my_framework_ext" "ext", Raised x,
       {| extension_map := extension_map fresh;
          host := host_print (lazily_importing "my_framework_ext" "ext")
                             (host fresh) |})
    ∧ exc_class x = ImportError
    ∧ catches ImportError x = true
    ∧ catches AttributeError x = false
    ∧ contains "ext" (exc_msg x)
    ∧ contains "my_framework_ext" (exc_msg x)
    ∧ exc_cause x
      = Some (mkExc ModuleNotFoundError
                    "No module named 'my_framework_ext'" None).
Proof.
  apply (import_failure_raises_extension_missing
           (cpython_import without_extension) "ext" "my_framework_ext" fresh);
    reflexivity.
Defined.

(** C7: when a failing load of the mapped identifier registers nothing,
    an access that ends in an exception leaves [sys.modules] as it was:
    [__getattr__] itself writes nothing there, on the way in or in its
    handler. *)
Theorem failed_access_keeps_registry
    (L : Loader) (name pkg : string) (w : World)
    (ev : list Event) (x : PyExc) (w' : World) :
  failure_keeps_registry L pkg →
  extension_map w !! name = Some pkg →
  exec L (__getattr__ name) w = (ev, Raised x, w') →
  sys_modules (host w') = sys_modules (host w).
Proof.
  intros Hatomic Hk Hrun. rewrite (getattr_known L name pkg w Hk) in Hrun.
  destruct (L pkg _) as [[e|module] h1] eqn:Hload; [|by simplify_eq].
  apply Hatomic in Hload. simpl in Hload.
  destruct (catches ImportError e); injection Hrun as _ _ <-; exact Hload.
Qed.

Lemma failed_access_keeps_registry_witness :
  sys_modules
    (host (exec (cpython_import without_extension) (__getattr__ "ext")
                fresh).2)
  = sys_modules (host fresh).
Proof.
  apply (failed_access_keeps_registry
           (cpython_import without_extension) "ext" "my_framework_ext" fresh
           (trace_of "my_framework_ext" "ext")
           (mkExc ImportError
              (missing_extension "ext" "my_framework_ext")
              (Some (mkExc ModuleNotFoundError
                           "No module named 'my_framework_ext'" None)))).
  - apply cpython_failure_keeps_registry.
  - reflexivity.
  - reflexivity.
Defined.

(** ** The trace *)

(** C6: for a name of the map, every run of [__getattr__], on any world and
    whatever the loader answers, makes exactly two calls into the host: the
    [print] of the line that names the identifier and the attribute, then the
    load.  With a loader that memoizes, an access that follows a successful
    one prints the line again and runs no module body. *)
Theorem trace_once_per_access_before_load
    (L : Loader) (name pkg : string) (w : World) :
  extension_map w !! name = Some pkg →
  (exec L (__getattr__ name) w).1.1
  = [EvPrint (lazily_importing pkg name); EvImport pkg]
  ∧ contains name (lazily_importing pkg name)
  ∧ contains pkg (lazily_importing pkg name)
  ∧ (memoizes L →
     ∀ ev1 module w1,
       exec L (__getattr__ name) w = (ev1, Returned module, w1) →
       (exec L (__getattr__ name) w1).1.1
       = [EvPrint (lazily_importing pkg name); EvImport pkg]
       ∧ stdout (host (exec L (__getattr__ name) w1).2)
         = stdout (host w1) ++ [lazily_importing pkg name]
       ∧ initialised (host (exec L (__getattr__ name) w1).2)
         = initialised (host w1)).
Proof.
  intros Hk.
  assert (Hev : ∀ w0, extension_map w0 !! name = Some pkg →
            (exec L (__getattr__ name) w0).1.1 = trace_of pkg name).
  { intros w0 Hk0. rewrite (getattr_known L name pkg w0 Hk0).
    destruct (L pkg _) as [[e|module] h1]; [|done].
    by destruct (catches ImportError e). }
  split; [by apply Hev|].
  split; [apply lazily_importing_names_attribute|].
  split; [apply lazily_importing_names_package|].
  intros Hmemo ev1 module w1 Hrun.
  rewrite (getattr_known L name pkg w Hk) in Hrun.
  destruct (L pkg _) as [[e|m] h1] eqn:Hload.
  { destruct (catches ImportError e); simplify_eq. }
  simplify_eq.
  apply (memo_registers L Hmemo) in Hload.
  set (wa := {| extension_map := extension_map w; host := h1 |}).
  assert (Hk1 : extension_map wa !! name = Some pkg) by done.
  split; [by apply Hev|].
  rewrite (getattr_known L name pkg wa Hk1).
  rewrite (memo_hit L Hmemo pkg
             (host_print (lazily_importing pkg name) (host wa)) module)
    by done.
  done.
Qed.

Lemma trace_once_per_access_before_load_witness :
  (exec (cpython_import with_extension) (__getattr__ "ext") fresh).1.1
  = [EvPrint (lazily_importing "my_framework_ext" "ext");
     EvImport "my_framework_ext"]
  ∧ (exec (cpython_import with_extension) (__getattr__ "ext")
       (exec (cpython_import with_extension) (__getattr__ "ext") fresh).2).1.1
    = [EvPrint (lazily_importing "my_framework_ext" "ext");
       EvImport "my_framework_ext"]
  ∧ stdout
      (host (exec (cpython_import with_extension) (__getattr__ "ext")
               (exec (cpython_import with_extension) (__getattr__ "ext")
                     fresh).2).2)
    = [lazily_importing "my_framework_ext" "ext";
       lazily_importing "my_framework_ext" "ext"]
  ∧ initialised
      (host (exec (cpython_import with_extension) (__getattr__ "ext")
               (exec (cpython_import with_extension) (__getattr__ "ext")
                     fresh).2).2)
    = ["my_framework_ext"].
Proof.
  destruct (trace_once_per_access_before_load
              (cpython_import with_extension) "ext" "my_framework_ext" fresh
              eq_refl) as (Hev & _ & _ & Hrepeat).
  split; [exact Hev|].
  exact (Hrepeat (cpython_memoizes with_extension)
           (trace_of "my_framework_ext" "ext") ext_module
           (exec (cpython_import with_extension) (__getattr__ "ext") fresh).2
           eq_refl).
Defined.

(** C9: for a name of the map, an access that ends in an exception has made
    the same two calls, the [print] first: the loader that failed was given
    a host whose standard output already ends with the line.  For a name
    that is not in the map nothing is printed. *)
Theorem trace_despite_failure_and_none_for_unknown
    (L : Loader) (name : string) (w : World) :
  (∀ pkg ev x w',
     extension_map w !! name = Some pkg →
     exec L (__getattr__ name) w = (ev, Raised x, w') →
     ev = [EvPrint (lazily_importing pkg name); EvImport pkg]
     ∧ ∃ e, L pkg (host_print (lazily_importing pkg name) (host w))
            = (inl e, host w'))
  ∧ (extension_map w !! name = None →
     (∀ line, EvPrint line ∉ (exec L (__getattr__ name) w).1.1)
     ∧ stdout (host (exec L (__getattr__ name) w).2) = stdout (host w)).
Proof.
  split.
  - intros pkg ev x w' Hk Hrun.
    rewrite (getattr_known L name pkg w Hk) in Hrun.
    destruct (L pkg _) as [[e|module] h1]; [|by simplify_eq].
    destruct (catches ImportError e); simplify_eq; eauto.
  - intros Hk. rewrite (getattr_unknown L name w Hk). simpl.
    split; [|done]. intros line Hin. by apply not_elem_of_nil in Hin.
Qed.

Lemma trace_despite_failure_witness :
  (trace_of "my_framework_ext" "ext"
   = [EvPrint (lazily_importing "my_framework_ext" "ext");
      EvImport "my_framework_ext"]
   ∧ ∃ e, cpython_import without_extension "my_framework_ext"
            (host_print (lazily_importing "my_framework_ext" "ext")
                        (host fresh))
          = (inl e,
             host (exec (cpython_import without_extension)
                        (__getattr__ "ext") fresh).2))
  ∧ (∀ line,
       EvPrint line
       ∉ (exec (cpython_import without_extension)
               (__getattr__ "missing_name") fresh).1.1)
  ∧ stdout (host (exec (cpython_import without_extension)
                       (__getattr__ "missing_name") fresh).2)
    = stdout (host fresh).
Proof.
  split.
  - apply (proj1 (trace_despite_failure_and_none_for_unknown
                    (cpython_import without_extension) "ext" fresh)
             "my_framework_ext" _
             (mkExc ImportError
                (missing_extension "ext" "my_framework_ext")
                (Some (mkExc ModuleNotFoundError
                             "No module named 'my_framework_ext'" None)))
             (exec (cpython_import without_extension)
                   (__getattr__ "ext") fresh).2);
      reflexivity.
  - apply (proj2 (trace_despite_failure_and_none_for_unknown
                    (cpython_import without_extension) "missing_name"
                    fresh)).
    reflexivity.
Defined.

(** ** Two accesses *)

(** C3: with a loader that memoizes, an access that follows a successful
    access of the same name returns the same unit, identity included.  The
    second access runs no module body and registers nothing; over the two
    accesses the body of the package has run once when it was not registered
    before the first, and not at all when it was. *)
Theorem second_access_same_unit
    (L : Loader) (name pkg : string) (w0 : World)
    (ev1 : list Event) (module : PyModule) (w1 : World) :
  memoizes L →
  extension_map w0 !! name = Some pkg →
  exec L (__getattr__ name) w0 = (ev1, Returned module, w1) →
  ∃ ev2 w2,
    exec L (__getattr__ name) w1 = (ev2, Returned module, w2)
    ∧ sys_modules (host w1) !! pkg = Some module
    ∧ sys_modules (host w2) = sys_modules (host w1)
    ∧ initialised (host w2) = initialised (host w1)
    ∧ init_count pkg (host w2)
      = init_count pkg (host w0)
        + match sys_modules (host w0) !! pkg with
          | Some _ => 0
          | None => 1
          end.
Proof.
  intros Hmemo Hk Hrun.
  rewrite (getattr_known L name pkg w0 Hk) in Hrun.
  destruct (L pkg _) as [[e|m] h1] eqn:Hload.
  { destruct (catches ImportError e); simplify_eq. }
  simplify_eq.
  pose proof (memo_registers L Hmemo _ _ _ _ Hload) as Hreg.
  set (wa := {| extension_map := extension_map w0; host := h1 |}).
  assert (Hk1 : extension_map wa !! name = Some pkg) by done.
  rewrite (getattr_known L name pkg wa Hk1).
  rewrite (memo_hit L Hmemo pkg
             (host_print (lazily_importing pkg name) (host wa)) module)
    by done.
  do 2 eexists. split; [reflexivity|]. simpl.
  repeat split; [done|].
  rewrite init_count_print.
  destruct (sys_modules (host w0) !! pkg) as [m0|] eqn:H0.
  - rewrite (memo_hit L Hmemo pkg
               (host_print (lazily_importing pkg name) (host w0)) m0)
      in Hload by done.
    simplify_eq. rewrite init_count_print. lia.
  - rewrite (memo_runs_once L Hmemo pkg
               (host_print (lazily_importing pkg name) (host w0)) module h1)
      by done.
    rewrite init_count_print. lia.
Qed.

Lemma second_access_same_unit_witness :
  ∃ ev2 w2,
    exec (cpython_import with_extension) (__getattr__ "ext")
      (exec (cpython_import with_extension) (__getattr__ "ext") fresh).2
    = (ev2, Returned ext_module, w2)
    ∧ sys_modules
        (host (exec (cpython_import with_extension) (__getattr__ "ext")
                    fresh).2) !! "my_framework_ext"
      = Some ext_module
    ∧ sys_modules (host w2)
      = sys_modules
          (host (exec (cpython_import with_extension) (__getattr__ "ext")
                      fresh).2)
    ∧ initialised (host w2)
      = initialised
          (host (exec (cpython_import with_extension) (__getattr__ "ext")
                      fresh).2)
    ∧ init_count "my_framework_ext" (host w2)
      = init_count "my_framework_ext" (host fresh)
        + match sys_modules (host fresh) !! "my_framework_ext" with
          | Some _ => 0
          | None => 1
          end.
Proof.
  apply (second_access_same_unit
           (cpython_import with_extension) "ext" "my_framework_ext" fresh
           (trace_of "my_framework_ext" "ext")).
  - apply cpython_memoizes.
  - reflexivity.
  - reflexivity.
Defined.

(** ** The dictionary *)

(** C8: once the module body has run, [_EXTENSION_MAP] is the dictionary
    with the one entry ["ext"] to ["my_framework_ext"], and it is the same
    dictionary after any accesses, whatever the names and whatever the
    loader answers. *)
Theorem extension_map_never_changes
    (L : Loader) (w : World) (ev : list Event) (w0 : World) :
  exec L module_body w = (ev, Fell, w0) →
  extension_map w0 = {[ "ext" := "my_framework_ext" ]}
  ∧ ∀ names,
      extension_map (accesses L names w0) = {[ "ext" := "my_framework_ext" ]}.
Proof.
  intros Hbody. apply module_body_binds_map in Hbody.
  split; [done|]. intros names. by rewrite accesses_keep_map.
Qed.

Lemma extension_map_never_changes_witness :
  extension_map (exec (cpython_import without_extension) module_body blank).2
  = {[ "ext" := "my_framework_ext" ]}
  ∧ ∀ names,
      extension_map
        (accesses (cpython_import without_extension) names
           (exec (cpython_import without_extension) module_body blank).2)
      = {[ "ext" := "my_framework_ext" ]}.
Proof.
  apply (extension_map_never_changes
           (cpython_import without_extension) blank
           [EvImport "importlib"; EvImport "sys"; EvImport "typing"]).
  reflexivity.
Defined.

(** ** Importing the package *)

(** C5: running the module body alone asks the loader for [importlib],
    [sys] and [typing] and for nothing else, so for no identifier of the
    map; the block under [if False] makes no call and changes nothing; and
    with the reference loader the entry of an extension in [sys.modules] and
    the number of runs of its body are what they were before. *)
Theorem module_body_loads_no_extension
    (L : Loader) (w : World) (name pkg : string) :
  _EXTENSION_MAP !! name = Some pkg →
  (EvImport pkg ∉ (exec L module_body w).1.1)
  ∧ (∀ id, EvImport id ∈ (exec L module_body w).1.1 →
           id ∈ ["importlib"; "sys"; "typing"])
  ∧ exec L type_hint_block w = ([], Fell, w)
  ∧ ∀ installed,
      untouched pkg (host w)
        (host (exec (cpython_import installed) module_body w).2).
Proof.
  intros Hk. unfold _EXTENSION_MAP in Hk.
  apply lookup_singleton_Some in Hk as [_ <-].
  assert (Hids : ∀ id, EvImport id ∈ (exec L module_body w).1.1 →
                       id ∈ ["importlib"; "sys"; "typing"]).
  { intros id. pose proof (module_body_events L w) as Hev.
    revert Hev. generalize (exec L module_body w).1.1. intros evs Hev Hin.
    repeat (apply elem_of_cons in Hev as [->|Hev]);
      try (by apply elem_of_nil in Hev);
      repeat (apply elem_of_cons in Hin as [Hin|Hin];
              [injection Hin as ->; by repeat constructor|]);
      by apply elem_of_nil in Hin. }
  split; [|split; [done|split; [done|]]].
  - intros Hin. apply Hids in Hin.
    repeat (apply elem_of_cons in Hin as [Hin|Hin]; [done|]).
    by apply elem_of_nil in Hin.
  - intros installed.
    pose proof (module_body_host (cpython_import installed) w) as Hh.
    cbv zeta in Hh.
    revert Hh.
    generalize (host (exec (cpython_import installed) module_body w).2).
    intros hf Hh.
    pose proof (cpython_import_untouched installed "importlib"
                  "my_framework_ext" (host w)) as [A1 B1]; [done|].
    pose proof (cpython_import_untouched installed "sys" "my_framework_ext"
                  (cpython_import installed "importlib" (host w)).2)
      as [A2 B2]; [done|].
    pose proof (cpython_import_untouched installed "typing"
                  "my_framework_ext"
                  (cpython_import installed "sys"
                     (cpython_import installed "importlib" (host w)).2).2)
      as [A3 B3]; [done|].
    unfold untouched.
    apply elem_of_cons in Hh as [->|Hh]; [by split|].
    apply elem_of_cons in Hh as [->|Hh]; [split; congruence|].
    apply list_elem_of_singleton in Hh as ->. split; congruence.
Qed.

Lemma module_body_loads_no_extension_witness :
  (EvImport "my_framework_ext"
   ∉ (exec (cpython_import with_extension) module_body blank).1.1)
  ∧ (∀ id,
       EvImport id
       ∈ (exec (cpython_import with_extension) module_body blank).1.1 →
       id ∈ ["importlib"; "sys"; "typing"])
  ∧ exec (cpython_import with_extension) type_hint_block blank
    = ([], Fell, blank)
  ∧ ∀ installed,
      untouched "my_framework_ext" (host blank)
        (host (exec (cpython_import installed) module_body blank).2).
Proof.
  apply (module_body_loads_no_extension
           (cpython_import with_extension) blank "ext" "my_framework_ext").
  reflexivity.
Defined.


(** * Further properties of the code *)

(** ** How an access ends *)

Lemma getattr_events (L : Loader) (name : string) (w : World) :
  (exec L (__getattr__ name) w).1.1 = calls_for (extension_map w) name.
Proof.
  unfold calls_for. destruct (extension_map w !! name) as [pkg|] eqn:Hk.
  - rewrite (getattr_known L name pkg w Hk).
    destruct (L pkg _) as [[e|module] h1]; [|done].
    by destruct (catches ImportError e).
  - by rewrite (getattr_unknown L name w Hk).
Qed.


(** ** Sequences of accesses *)

(** X2: over any sequence of accesses the calls into the host are, access
    by access, those of the name alone: the line and one request to the
    loader for a name of the map, nothing for any other name, whatever the
    earlier accesses did.  So the loader is asked once per access of a
    mapped name, failed or not, and only for identifiers that the map gives
    to a name of the sequence. *)
Theorem accesses_call_per_mapped_name
    (L : Loader) (names : list string) (w : World) :
  (access_log L names w).*1 = calls_for (extension_map w) <$> names
  ∧ ∀ id,
      EvImport id ∈ mjoin (access_log L names w).*1 →
      ∃ name, name ∈ names ∧ extension_map w !! name = Some id.
Proof.
  assert (Hlog : ∀ w0, (access_log L names w0).*1
                       = calls_for (extension_map w0) <$> names).
  { induction names as [|name rest IH]; intros w0; [done|].
    cbn [access_log fmap list_fmap].
    change (list_fmap _ _ fst ?l) with (l.*1).
    rewrite IH, getattr_keeps_map. f_equal. apply getattr_events. }
  split; [apply Hlog|].
  intros id Hin. rewrite Hlog in Hin.
  apply list_elem_of_join in Hin as (evs & Hin & Hevs).
  apply list_elem_of_fmap in Hevs as (name & -> & Hname).
  exists name. split; [done|].
  unfold calls_for, trace_of in Hin.
  destruct (extension_map w !! name) as [pkg|]; [|by apply elem_of_nil in Hin].
  apply elem_of_cons in Hin as [Hin|Hin]; [done|].
  apply list_elem_of_singleton in Hin. by simplify_eq.
Qed.

Lemma accesses_call_per_mapped_name_witness :
  (access_log (cpython_import without_extension)
              ["ext"; "missing_name"; "ext"] fresh).*1
  = [trace_of "my_framework_ext" "ext"; [];
     trace_of "my_framework_ext" "ext"]
  ∧ ∃ name,
      name ∈ ["ext"; "missing_name"; "ext"]
      ∧ extension_map fresh !! name = Some "my_framework_ext".
Proof.
  destruct (accesses_call_per_mapped_name
              (cpython_import without_extension)
              ["ext"; "missing_name"; "ext"] fresh) as [Hlog Hids].
  split; [exact Hlog|].
  apply Hids. rewrite Hlog. simpl.
  apply elem_of_cons. right. apply elem_of_cons. by left.
Defined.

(** X3: accesses of names outside the map leave no mark: the world after a
    sequence of accesses is the world after the accesses of its mapped
    names alone. *)
Theorem unmapped_accesses_leave_no_mark
    (L : Loader) (names : list string) (w : World) :
  accesses L names w
  = accesses L (filter (λ name, is_Some (extension_map w !! name)) names) w.
Proof.
  revert w. induction names as [|name rest IH]; intros w; [done|].
  destruct (extension_map w !! name) as [pkg|] eqn:Hk.
  - rewrite filter_cons_True by (rewrite Hk; eauto).
    cbn [accesses]. rewrite IH, getattr_keeps_map. done.
  - rewrite filter_cons_False by (rewrite Hk; by intros [? ?]).
    cbn [accesses]. rewrite (getattr_unknown L name w Hk). apply IH.
Qed.

(** An access of a mapped name whose package is registered, under a loader
    that answers registered identifiers from [sys.modules]. *)
Lemma getattr_registered (L : Loader) (name pkg : string) (w : World)
    (module : PyModule) :
  memoizes L →
  extension_map w !! name = Some pkg →
  sys_modules (host w) !! pkg = Some module →
  exec L (__getattr__ name) w
  = (trace_of pkg name, Returned module,
     {| extension_map := extension_map w;
        host := host_print (lazily_importing pkg name) (host w) |}).
Proof.
  intros Hmemo Hk Hreg. rewrite (getattr_known L name pkg w Hk).
  by rewrite (memo_hit L Hmemo pkg
                (host_print (lazily_importing pkg name) (host w)) module).
Qed.

(** X4: with a loader that memoizes, after one successful access any number
    of further accesses of the name each print the line, ask the loader and
    return the same unit; together they add their lines to standard output
    and change nothing else: no entry of [sys.modules], no run of a module
    body, not the map. *)
Theorem repeated_accesses_share_unit
    (L : Loader) (name pkg : string) (w0 : World)
    (ev1 : list Event) (module : PyModule) (w1 : World) (n : nat) :
  memoizes L →
  extension_map w0 !! name = Some pkg →
  exec L (__getattr__ name) w0 = (ev1, Returned module, w1) →
  access_log L (replicate n name) w1
  = replicate n (trace_of pkg name, Returned module)
  ∧ accesses L (replicate n name) w1
    = {| extension_map := extension_map w1;
         host :=
           {| stdout :=
                stdout (host w1) ++ replicate n (lazily_importing pkg name);
              sys_modules := sys_modules (host w1);
              initialised := initialised (host w1) |} |}.
Proof.
  intros Hmemo Hk Hrun.
  assert (Hk1 : extension_map w1 !! name = Some pkg).
  { replace w1 with (exec L (__getattr__ name) w0).2 by (by rewrite Hrun).
    by rewrite getattr_keeps_map. }
  assert (Hreg : sys_modules (host w1) !! pkg = Some module).
  { rewrite (getattr_known L name pkg w0 Hk) in Hrun.
    destruct (L pkg _) as [[e|m] h1] eqn:Hload.
    - destruct (catches ImportError e); simplify_eq.
    - simplify_eq. simpl. by apply (memo_registers L Hmemo) in Hload. }
  clear Hrun Hk. revert w1 Hk1 Hreg.
  induction n as [|n IH]; intros w1 Hk1 Hreg.
  - simpl. rewrite app_nil_r. by destruct w1 as [d [? ? ?]].
  - cbn [replicate access_log accesses].
    rewrite (getattr_registered L name pkg w1 module Hmemo Hk1 Hreg).
    cbn [fst snd].
    destruct (IH {| extension_map := extension_map w1;
                    host := host_print (lazily_importing pkg name) (host w1) |})
      as [IHlog IHworld]; [done|done|].
    rewrite IHlog, IHworld. simpl. by rewrite <- app_assoc.
Qed.

Lemma repeated_accesses_share_unit_witness :
  access_log (cpython_import with_extension) (replicate 3 "ext")
    (exec (cpython_import with_extension) (__getattr__ "ext") fresh).2
  = replicate 3 (trace_of "my_framework_ext" "ext", Returned ext_module)
  ∧ accesses (cpython_import with_extension) (replicate 3 "ext")
      (exec (cpython_import with_extension) (__getattr__ "ext") fresh).2
    = {| extension_map := _EXTENSION_MAP;
         host :=
           {| stdout :=
                [lazily_importing "my_framework_ext" "ext"]
                ++ replicate 3 (lazily_importing "my_framework_ext" "ext");
              sys_modules := {[ "my_framework_ext" := ext_module ]};
              initialised := ["my_framework_ext"] |} |}.
Proof.
  apply (repeated_accesses_share_unit
           (cpython_import with_extension) "ext" "my_framework_ext" fresh
           (trace_of "my_framework_ext" "ext") ext_module
           (exec (cpython_import with_extension) (__getattr__ "ext") fresh).2
           3).
  - apply cpython_memoizes.
  - reflexivity.
  - reflexivity.
Defined.

(** ** The message of the [AttributeError] *)

Lemma plain_no_squote (s : string) :
  plain s = true → has_char squote s = false.
Proof.
  induction s as [|a rest IH]; [done|].
  cbn [plain has_char]. unfold plain_char.
  intros H. apply andb_true_iff in H as [Ha Hrest].
  apply andb_true_iff in Ha as [Ha Hb].
  apply andb_true_iff in Ha as [_ Hq].
  apply negb_true_iff, bool_decide_eq_false in Hq.
  destruct (decide (a = squote)); [done|]. by apply IH.
Qed.

Lemma plain_repr_escape (s : string) :
  plain s = true → repr_escape squote s = s.
Proof.
  induction s as [|a rest IH]; [done|].
  cbn [plain repr_escape]. unfold plain_char.
  intros H. apply andb_true_iff in H as [Ha Hrest].
  apply andb_true_iff in Ha as [Ha Hb].
  apply andb_true_iff in Ha as [Hrange Hq].
  apply bool_decide_eq_true in Hrange.
  apply negb_true_iff, bool_decide_eq_false in Hq.
  apply negb_true_iff, bool_decide_eq_false in Hb.
  rewrite (IH Hrest).
  repeat (destruct (decide _) as [?|?]; [lia || done|]); done.
Qed.

Lemma plain_repr (s : string) :
  plain s = true → repr s = "'" +:+ s +:+ "'".
Proof.
  intros H. unfold repr.
  rewrite (plain_no_squote s H). cbn [andb].
  by rewrite (plain_repr_escape s H).
Qed.

(** X5: for a name outside the map that is made of printable ASCII
    characters other than the single quote and the backslash (any
    identifier), the [AttributeError] carries the text that Python itself
    gives for a missing module attribute, with the package and the name
    between single quotes, and it has no cause. *)
Theorem unknown_plain_name_message (L : Loader) (name : string) (w : World) :
  plain name = true →
  extension_map w !! name = None →
  (exec L (__getattr__ name) w).1.2
  = Raised (mkExc AttributeError
              ("module 'my_framework' has no attribute '" +:+ name +:+ "'")
              None).
Proof.
  intros Hplain Hk. rewrite (getattr_unknown L name w Hk). simpl.
  unfold no_attribute. rewrite (plain_repr name Hplain).
  change (repr __name__) with "'my_framework'".
  reflexivity.
Qed.

Lemma unknown_plain_name_message_witness :
  (exec (cpython_import with_extension) (__getattr__ "missing_name")
        fresh).1.2
  = Raised (mkExc AttributeError
              ("module 'my_framework' has no attribute '" +:+ "missing_name"
               +:+ "'")
              None).
Proof.
  apply (unknown_plain_name_message
           (cpython_import with_extension) "missing_name" fresh);
    reflexivity.
Defined.

(** ** The module body *)

(** The two ways the module body ends. *)
Lemma module_body_cases (L : Loader) (w : World) :
  (∃ w',
     exec L module_body w
     = ([EvImport "importlib"; EvImport "sys"; EvImport "typing"], Fell, w')
     ∧ extension_map w' = _EXTENSION_MAP)
  ∨ (∃ ev e w' id h,
       exec L module_body w = (ev, Raised e, w')
       ∧ extension_map w' = extension_map w
       ∧ last ev = Some (EvImport id)
       ∧ id ∈ ["importlib"; "sys"; "typing"]
       ∧ L id h = (inl e, host w')).
Proof.
  unfold module_body, type_hint_block. simpl.
  destruct (L "importlib" (host w)) as [[e1|m1] h1] eqn:H1; simpl.
  { right. do 3 eexists. exists "importlib", (host w).
    split; [reflexivity|]. split; [done|]. split; [done|]. split; [|done].
    apply elem_of_cons. by left. }
  destruct (L "sys" h1) as [[e2|m2] h2] eqn:H2; simpl.
  { right. do 3 eexists. exists "sys", h1.
    split; [reflexivity|]. split; [done|]. split; [done|]. split; [|done].
    apply elem_of_cons. right. apply elem_of_cons. by left. }
  destruct (L "typing" h2) as [[e3|m3] h3] eqn:H3; simpl.
  { right. do 3 eexists. exists "typing", h2.
    split; [reflexivity|]. split; [done|]. split; [done|]. split; [|done].
    do 2 (apply elem_of_cons; right). apply elem_of_cons. by left. }
  left. by eexists.
Qed.

(** X6: the module body binds the map only when its three imports went
    through, in which case it made exactly these three requests; when one of
    them raises, the body raises that exception right after the request that
    failed and [_EXTENSION_MAP] is left as it was.  The body never ends in a
    [return]. *)
Theorem module_body_all_or_nothing (L : Loader) (w : World) :
  match exec L module_body w with
  | (ev, Fell, w') =>
      ev = [EvImport "importlib"; EvImport "sys"; EvImport "typing"]
      ∧ extension_map w' = _EXTENSION_MAP
  | (ev, Raised e, w') =>
      extension_map w' = extension_map w
      ∧ ∃ id h,
          last ev = Some (EvImport id)
          ∧ id ∈ ["importlib"; "sys"; "typing"]
          ∧ L id h = (inl e, host w')
  | (ev, Returned _, w') => False
  end.
Proof.
  destruct (module_body_cases L w)
    as [(w' & Hrun & Hmap) | (ev & e & w' & id & h & Hrun & Hmap & Hrest)];
    rewrite Hrun.
  - by split.
  - split; [done|]. by exists id, h.
Qed.

(** ** Import, then the first access *)

(** X7: when the loads of the three standard modules leave the entry of
    [my_framework_ext] alone and a successful load of [my_framework_ext]
    registers the unit, then from a host where the extension is not
    registered: it is still not registered once the module body has run,
    and after a first access of [ext] that returns, it is, under the unit
    returned. *)
Theorem first_access_registers_extension
    (L : Loader) (w : World) (ev : list Event) (w0 : World) :
  (∀ id, id ∈ ["importlib"; "sys"; "typing"] →
         leaves_alone L id "my_framework_ext") →
  registers L "my_framework_ext" →
  sys_modules (host w) !! "my_framework_ext" = None →
  exec L module_body w = (ev, Fell, w0) →
  sys_modules (host w0) !! "my_framework_ext" = None
  ∧ ∀ ev1 module w1,
      exec L (__getattr__ "ext") w0 = (ev1, Returned module, w1) →
      sys_modules (host w1) !! "my_framework_ext" = Some module.
Proof.
  intros Halone Hreg Hfresh Hbody.
  assert (Hmap : extension_map w0 !! "ext" = Some "my_framework_ext").
  { by rewrite (module_body_binds_map L w ev w0 Hbody). }
  split.
  - pose proof (Halone "importlib") as A1.
    pose proof (Halone "sys") as A2.
    pose proof (Halone "typing") as A3.
    unfold leaves_alone in *.
    revert Hbody. unfold module_body, type_hint_block. simpl.
    specialize (A1 ltac:(apply elem_of_cons; by left) (host w)).
    destruct (L "importlib" (host w)) as [[e1|m1] h1]; simpl; [done|].
    specialize (A2 ltac:(do 1 (apply elem_of_cons; right);
                         apply elem_of_cons; by left) h1).
    destruct (L "sys" h1) as [[e2|m2] h2]; simpl; [done|].
    specialize (A3 ltac:(do 2 (apply elem_of_cons; right);
                         apply elem_of_cons; by left) h2).
    destruct (L "typing" h2) as [[e3|m3] h3]; simpl; [done|].
    intros H. simplify_eq. simpl in *. congruence.
  - intros ev1 module w1 Hrun.
    rewrite (getattr_known L "ext" "my_framework_ext" w0 Hmap) in Hrun.
    destruct (L "my_framework_ext" _) as [[e|m] h1] eqn:Hload.
    + destruct (catches ImportError e); simplify_eq.
    + simplify_eq. simpl. by apply Hreg in Hload.
Qed.

Lemma cpython_leaves_alone (installed : gmap string Source)
    (id pkg : string) :
  id ≠ pkg → leaves_alone (cpython_import installed) id pkg.
Proof.
  intros Hne h. by destruct (cpython_import_untouched installed id pkg h Hne).
Qed.

Lemma cpython_registers (installed : gmap string Source) (pkg : string) :
  registers (cpython_import installed) pkg.
Proof.
  intros h m h' H. by apply (memo_registers _ (cpython_memoizes installed)) in H.
Qed.

Lemma standard_modules_leave_alone (installed : gmap string Source)
    (ids : list string) (pkg : string) :
  pkg ∉ ids →
  ∀ id, id ∈ ids → leaves_alone (cpython_import installed) id pkg.
Proof.
  intros Hnot id Hin. apply cpython_leaves_alone. by intros ->.
Qed.

Lemma first_access_registers_extension_witness :
  sys_modules
    (host (exec (cpython_import with_extension) module_body blank).2)
  !! "my_framework_ext" = None
  ∧ ∀ ev1 module w1,
      exec (cpython_import with_extension) (__getattr__ "ext")
        (exec (cpython_import with_extension) module_body blank).2
      = (ev1, Returned module, w1) →
      sys_modules (host w1) !! "my_framework_ext" = Some module.
Proof.
  apply (first_access_registers_extension
           (cpython_import with_extension) blank
           [EvImport "importlib"; EvImport "sys"; EvImport "typing"]).
  - apply standard_modules_leave_alone.
    intros Hin.
    repeat (apply elem_of_cons in Hin as [Hin|Hin]; [done|]).
    by apply elem_of_nil in Hin.
  - apply cpython_registers.
  - reflexivity.
  - reflexivity.
Defined.

(** ** The script *)

Lemma script_bind_run {A B : Type} (m : Script A) (f : A → Script B)
    (w : World) :
  (m ≫= f) w
  = let '(ev1, r, w1) := m w in
    match r with
    | inl e => (ev1, inl e, w1)
    | inr a => let '(ev2, r2, w2) := f a w1 in (ev1 ++ ev2, r2, w2)
    end.
Proof. reflexivity. Qed.

Lemma say_run (L : Loader) (line : string) (w : World) :
  say L line w
  = ([EvPrint line], inr tt,
     {| extension_map := extension_map w;
        host := host_print line (host w) |}).
Proof. reflexivity. Qed.

Lemma import_run (L : Loader) (id : string) (w : World) :
  import_ L id w
  = let '(r, h1) := L id (host w) in
    match r with
    | inl e =>
        ([EvImport id], inl e,
         {| extension_map := extension_map w; host := h1 |})
    | inr _ =>
        ([EvImport id], inr tt,
         {| extension_map := extension_map w; host := h1 |})
    end.
Proof.
  unfold import_, of_stmt. rewrite script_bind_run. simpl.
  by destruct (L id (host w)) as [[e|m] h1].
Qed.

Lemma import_my_framework_fresh (L : Loader) (framework_module : PyModule)
    (w : World) :
  sys_modules (host w) !! "my_framework" = None →
  import_my_framework L framework_module w
  = let w0 :=
      {| extension_map := extension_map w;
         host :=
           {| stdout := stdout (host w);
              sys_modules :=
                <["my_framework" := framework_module]> (sys_modules (host w));
              initialised := initialised (host w) ++ ["my_framework"] |} |}
    in
    let '(ev, o, w1) := exec L module_body w0 in
    match o with
    | Raised e =>
        (EvImport "my_framework" :: ev, inl e,
         {| extension_map := extension_map w1;
            host :=
              {| stdout := stdout (host w1);
                 sys_modules := delete "my_framework" (sys_modules (host w1));
                 initialised := initialised (host w1) |} |})
    | _ => (EvImport "my_framework" :: ev, inr tt, w1)
    end.
Proof. intros H. unfold import_my_framework. by rewrite H. Qed.

Lemma module_body_leaves_alone (L : Loader) (pkg : string) (w : World) :
  (∀ id, id ∈ ["importlib"; "sys"; "typing"] → leaves_alone L id pkg) →
  sys_modules (host (exec L module_body w).2) !! pkg
  = sys_modules (host w) !! pkg.
Proof.
  intros Halone.
  assert (A1 : leaves_alone L "importlib" pkg).
  { apply Halone, elem_of_cons. by left. }
  assert (A2 : leaves_alone L "sys" pkg).
  { apply Halone, elem_of_cons. right. apply elem_of_cons. by left. }
  assert (A3 : leaves_alone L "typing" pkg).
  { apply Halone. do 2 (apply elem_of_cons; right).
    apply elem_of_cons. by left. }
  pose proof (module_body_host L w) as Hh. cbv zeta in Hh.
  revert Hh. generalize (host (exec L module_body w).2). intros hf Hh.
  unfold leaves_alone in *.
  apply elem_of_cons in Hh as [->|Hh]; [apply A1|].
  apply elem_of_cons in Hh as [->|Hh]; [by rewrite A2, A1|].
  apply list_elem_of_singleton in Hh as ->. by rewrite A3, A2, A1.
Qed.

Section DemoFacts.
Variable L : Loader.
Variable framework_module : PyModule.
Variable Tool : Type.
Variable SuperTool : PyModule → Host → (PyExc + Tool) * Host.
Variable run : Tool → Host → (PyExc + string) * Host.
Variable w : World.

Hypothesis framework_not_registered :
  sys_modules (host w) !! "my_framework" = None.
Hypothesis extension_not_registered :
  sys_modules (host w) !! "my_framework_ext" = None.
Hypothesis standard_loads :
  ∀ id pkg,
    id ∈ ["sys"; "time"; "importlib"; "typing"] →
    pkg ∈ ["my_framework"; "my_framework_ext"] →
    leaves_alone L id pkg.
Hypothesis extension_registers : registers L "my_framework_ext".
Hypothesis tool_keeps_entry :
  ∀ m h,
    sys_modules (SuperTool m h).2 !! "my_framework_ext"
    = sys_modules h !! "my_framework_ext".
Hypothesis standard_loads_succeed :
  ∀ id h e,
    id ∈ ["sys"; "time"; "importlib"; "typing"] → (L id h).1 ≠ inl e.
Hypothesis extension_missing :
  ∀ h,
    sys_modules h !! "my_framework_ext" = None →
    ∃ e h',
      L "my_framework_ext" h = (inl e, h') ∧ catches ImportError e = true.

(** The script up to the attribute access: either one of its imports
    raised, or it is about to read [my_framework.ext] with the map bound,
    the extension not registered and the first check printed as [False]. *)
Lemma demo_reaches_access :
  ∀ (k : Script unit),
    let prefix :=
      [EvImport "sys"; EvImport "time";
       EvPrint "1. Importing core framework...";
       EvImport "my_framework";
       EvImport "importlib"; EvImport "sys"; EvImport "typing";
       EvPrint (check_line false);
       EvPrint (newline +:+ "2. Doing core work (no extension needed)...");
       EvPrint (newline +:+ "3. Accessing extension for the first time...")]
    in
    let script :=
      (_ ← import_ L "sys";
       _ ← import_ L "time";
       _ ← say L "1. Importing core framework...";
       _ ← import_my_framework L framework_module;
       loaded ← in_sys_modules "my_framework_ext";
       _ ← say L (check_line loaded);
       _ ← say L (newline +:+ "2. Doing core work (no extension needed)...");
       _ ← say L (newline +:+ "3. Accessing extension for the first time...");
       k) in
    (∃ ev e w', script w = (ev, inl e, w')
                ∧ ∃ id h, id ∈ ["sys"; "time"; "importlib"; "typing"]
                          ∧ (L id h).1 = inl e)
    ∨ (∃ w9,
         extension_map w9 = _EXTENSION_MAP
         ∧ sys_modules (host w9) !! "my_framework_ext" = None
         ∧ script w
           = (let '(ev, r, w') := k w9 in (prefix ++ ev, r, w'))).
Proof.
  intros k prefix script. subst script prefix.
  assert (Hin : ∀ id pkg, id ∈ ["sys"; "time"; "importlib"; "typing"] →
                  pkg ∈ ["my_framework"; "my_framework_ext"] →
                  ∀ h r h', L id h = (r, h') →
                            sys_modules h' !! pkg = sys_modules h !! pkg).
  { intros id pkg Hid Hpkg h r h' Hload.
    pose proof (standard_loads id pkg Hid Hpkg h) as H.
    by rewrite Hload in H. }
  assert (Hids : ∀ id, id ∈ ["sys"; "time"; "importlib"; "typing"] ↔
                       id = "sys" ∨ id = "time" ∨ id = "importlib"
                       ∨ id = "typing").
  { intros id. rewrite !elem_of_cons, elem_of_nil. tauto. }
  assert (Hpkgs : ∀ pkg, pkg ∈ ["my_framework"; "my_framework_ext"] ↔
                         pkg = "my_framework" ∨ pkg = "my_framework_ext").
  { intros pkg. rewrite !elem_of_cons, elem_of_nil. tauto. }
  rewrite script_bind_run, import_run.
  destruct (L "sys" (host w)) as [[e1|m1] h1] eqn:E1.
  { left. do 3 eexists. split; [reflexivity|].
    exists "sys", (host w). rewrite E1. split; [apply Hids; tauto|done]. }
  rewrite script_bind_run, import_run. cbn [host extension_map].
  destruct (L "time" h1) as [[e2|m2] h2] eqn:E2.
  { left. do 3 eexists. split; [reflexivity|].
    exists "time", h1. rewrite E2. split; [apply Hids; tauto|done]. }
  rewrite script_bind_run, say_run. cbn [host extension_map].
  assert (S1 : ∀ pkg, pkg ∈ ["my_framework"; "my_framework_ext"] →
                      sys_modules h1 !! pkg = sys_modules (host w) !! pkg).
  { intros pkg Hpkg. apply (Hin "sys" pkg) with (r := inr m1); [|done|done].
    apply Hids; tauto. }
  assert (S2 : ∀ pkg, pkg ∈ ["my_framework"; "my_framework_ext"] →
                      sys_modules h2 !! pkg = sys_modules (host w) !! pkg).
  { intros pkg Hpkg. rewrite <- (S1 pkg Hpkg).
    apply (Hin "time" pkg) with (r := inr m2); [|done|done].
    apply Hids; tauto. }
  assert (Hthree : ∀ id, id ∈ ["importlib"; "sys"; "typing"] →
                         leaves_alone L id "my_framework_ext").
  { intros id Hid. apply standard_loads; [|apply Hpkgs; tauto].
    apply Hids. rewrite !elem_of_cons, elem_of_nil in Hid. tauto. }
  rewrite script_bind_run.
  rewrite import_my_framework_fresh; cbn [host extension_map host_print
                                           sys_modules stdout initialised].
  2:{ rewrite S2 by (apply Hpkgs; tauto). done. }
  cbv zeta.
  match goal with
  | |- context [exec L module_body ?w0] =>
      pose proof (module_body_leaves_alone L "my_framework_ext" w0 Hthree)
        as Hkeep;
      destruct (module_body_cases L w0)
        as [(wb & Hbody & Hmap)
           | (evb & e & wb & id & h & Hbody & _ & _ & Hid & Hload)];
      rewrite Hbody in Hkeep |- *
  end.
  all: cbn [fst snd host extension_map sys_modules] in Hkeep.
  all: rewrite lookup_insert_ne in Hkeep by done.
  all: rewrite S2 in Hkeep by (apply Hpkgs; tauto).
  all: rewrite extension_not_registered in Hkeep.
  - right.
    rewrite script_bind_run. unfold in_sys_modules at 1.
    rewrite Hkeep.
    rewrite bool_decide_eq_false_2 by (by intros [? ?]).
    rewrite script_bind_run, say_run.
    rewrite script_bind_run, say_run.
    rewrite script_bind_run, say_run.
    cbn [host extension_map].
    exists {| extension_map := extension_map wb;
              host :=
                host_print
                  (newline +:+ "3. Accessing extension for the first time...")
                  (host_print
                     (newline
                      +:+ "2. Doing core work (no extension needed)...")
                     (host_print (check_line false) (host wb))) |}.
    split; [done|]. split; [done|].
    by destruct (k _) as [[ev r] w'].
  - left.
    do 3 eexists. split; [reflexivity|].
    exists id, h. rewrite Hload. split; [|done].
    apply Hids. rewrite !elem_of_cons, elem_of_nil in Hid. tauto.
Qed.

(** X8: in a run of the script that reaches its end, started where neither
    package is registered, with standard modules whose loads leave the
    entries of the two packages alone, a loader that registers the extension
    when its load succeeds and a [SuperTool()] that leaves that entry alone:
    the calls into the host are exactly these, in this order.  The check
    before the access prints [False], the one after it prints [True], and
    the extension is requested once, after the third heading. *)
Theorem demo_checks_False_then_True (ev : list Event) (w' : World) :
  demo L framework_module Tool SuperTool run w = (ev, inr tt, w') →
  ∃ result,
    ev = demo_calls_to_access
         ++ [EvPrint (check_line true);
             EvPrint (newline +:+ "4. Result: " +:+ result)].
Proof.
  intros Hrun.
  destruct (demo_reaches_access
              (ext ← attribute L "ext";
               tool ← match ext with
                      | Some ext_unit => call (SuperTool ext_unit)
                      | None =>
                          script_raise
                            (mkExc AttributeError
                               "'NoneType' object has no attribute 'SuperTool'"
                               None)
                      end;
               loaded' ← in_sys_modules "my_framework_ext";
               _ ← say L (check_line loaded');
               result ← call (run tool);
               say L (newline +:+ "4. Result: " +:+ result)))
    as [(ev0 & e & w0 & Hs & _) | (w9 & Hmap & Hext9 & Hs)].
  { cbv zeta in Hs.
    assert (Hd : demo L framework_module Tool SuperTool run w
                 = (ev0, inl e, w0)) by exact Hs.
    rewrite Hd in Hrun. discriminate. }
  cbv zeta in Hs.
  assert (Hd : demo L framework_module Tool SuperTool run w = _) by exact Hs.
  rewrite Hd in Hrun. clear Hs Hd.
  assert (Hk : extension_map w9 !! "ext" = Some "my_framework_ext").
  { by rewrite Hmap. }
  rewrite script_bind_run in Hrun. unfold attribute, of_stmt in Hrun.
  rewrite (getattr_known L "ext" "my_framework_ext" w9 Hk) in Hrun.
  destruct (L "my_framework_ext" _) as [[e|m] h10] eqn:Hload.
  { destruct (catches ImportError e); discriminate. }
  apply extension_registers in Hload.
  rewrite script_bind_run in Hrun. unfold call at 1 in Hrun.
  cbn [host extension_map] in Hrun.
  pose proof (tool_keeps_entry m h10) as Hkeep.
  destruct (SuperTool m h10) as [[e|tool] h11]; [discriminate|].
  cbn [snd] in Hkeep. rewrite Hload in Hkeep.
  rewrite script_bind_run in Hrun. unfold in_sys_modules at 1 in Hrun.
  cbn [host extension_map] in Hrun. rewrite Hkeep in Hrun.
  rewrite bool_decide_eq_true_2 in Hrun by eauto.
  rewrite script_bind_run, say_run in Hrun.
  rewrite script_bind_run in Hrun. unfold call at 1 in Hrun.
  cbn [host extension_map] in Hrun.
  destruct (run tool _) as [[e|result] h12]; [discriminate|].
  rewrite say_run in Hrun.
  exists result. by simplify_eq.
Qed.

(** X9: from the same start, when the four standard modules load and the
    load of [my_framework_ext], as long as it is not registered, fails with
    an exception that [except ImportError] catches, the script stops at the
    attribute access with the [ImportError] of [__getattr__], whose cause is
    that exception.
    The first check has printed [False]; the second check and the result
    line are never printed. *)
Theorem demo_stops_at_missing_extension :
  ∃ e w',
    demo L framework_module Tool SuperTool run w
    = (demo_calls_to_access,
       inl (mkExc ImportError
                  (missing_extension "ext" "my_framework_ext") (Some e)),
       w')
    ∧ catches ImportError e = true.
Proof.
  destruct (demo_reaches_access
              (ext ← attribute L "ext";
               tool ← match ext with
                      | Some ext_unit => call (SuperTool ext_unit)
                      | None =>
                          script_raise
                            (mkExc AttributeError
                               "'NoneType' object has no attribute 'SuperTool'"
                               None)
                      end;
               loaded' ← in_sys_modules "my_framework_ext";
               _ ← say L (check_line loaded');
               result ← call (run tool);
               say L (newline +:+ "4. Result: " +:+ result)))
    as [(ev0 & e & w0 & _ & id & h & Hid & Hfail) | (w9 & Hmap & Hext9 & Hs)].
  { by apply standard_loads_succeed in Hfail. }
  cbv zeta in Hs.
  assert (Hd : demo L framework_module Tool SuperTool run w = _) by exact Hs.
  rewrite Hd. clear Hs Hd.
  assert (Hk : extension_map w9 !! "ext" = Some "my_framework_ext").
  { by rewrite Hmap. }
  rewrite script_bind_run. unfold attribute, of_stmt.
  rewrite (getattr_known L "ext" "my_framework_ext" w9 Hk).
  destruct (extension_missing
              (host_print (lazily_importing "my_framework_ext" "ext")
                          (host w9)) Hext9) as (e & h' & Hload & Hcatch).
  rewrite Hload, Hcatch. by do 2 eexists.
Qed.

End DemoFacts.

Lemma script_loads_leave_alone (installed : gmap string Source)
    (id pkg : string) :
  id ∈ ["sys"; "time"; "importlib"; "typing"] →
  pkg ∈ ["my_framework"; "my_framework_ext"] →
  leaves_alone (cpython_import installed) id pkg.
Proof.
  intros Hid Hpkg. apply cpython_leaves_alone. intros ->.
  rewrite !elem_of_cons, elem_of_nil in Hid.
  rewrite !elem_of_cons, elem_of_nil in Hpkg.
  destruct Hid as [->|[->|[->|[->|[]]]]];
    destruct Hpkg as [?|[?|[]]]; discriminate.
Qed.

Lemma demo_checks_False_then_True_witness :
  ∃ result,
    (demo (cpython_import script_library_with_extension)
          my_framework_module N example_SuperTool example_run blank).1.1
    = demo_calls_to_access
      ++ [EvPrint (check_line true);
          EvPrint (newline +:+ "4. Result: " +:+ result)].
Proof.
  apply (demo_checks_False_then_True
           (cpython_import script_library_with_extension)
           my_framework_module N example_SuperTool example_run blank
           eq_refl eq_refl
           (script_loads_leave_alone script_library_with_extension)
           (cpython_registers script_library_with_extension
                              "my_framework_ext")
           (λ m h, eq_refl)
           _
           (demo (cpython_import script_library_with_extension)
                 my_framework_module N example_SuperTool example_run
                 blank).2).
  reflexivity.
Defined.

Lemma script_library_loads (id : string) (h : Host) (e : PyExc) :
  id ∈ ["sys"; "time"; "importlib"; "typing"] →
  (cpython_import script_library id h).1 ≠ inl e.
Proof.
  intros Hid. rewrite !elem_of_cons, elem_of_nil in Hid.
  unfold cpython_import.
  destruct Hid as [->|[->|[->|[->|[]]]]];
    (destruct (sys_modules h !! _); [done|]).
  - by change (script_library !! "sys") with (Some (plain_module 11 "sys")).
  - by change (script_library !! "time") with (Some (plain_module 13 "time")).
  - by change (script_library !! "importlib")
      with (Some (plain_module 10 "importlib")).
  - by change (script_library !! "typing")
      with (Some (plain_module 12 "typing")).
Qed.

Lemma script_library_lacks_extension (h : Host) :
  sys_modules h !! "my_framework_ext" = None →
  ∃ e h',
    cpython_import script_library "my_framework_ext" h = (inl e, h')
    ∧ catches ImportError e = true.
Proof.
  intros Hnone. unfold cpython_import. rewrite Hnone.
  change (script_library !! "my_framework_ext") with (@None Source).
  by do 2 eexists.
Qed.

Lemma demo_stops_at_missing_extension_witness :
  ∃ e w',
    demo (cpython_import script_library)
         my_framework_module N example_SuperTool example_run blank
    = (demo_calls_to_access,
       inl (mkExc ImportError
                  (missing_extension "ext" "my_framework_ext") (Some e)),
       w')
    ∧ catches ImportError e = true.
Proof.
  apply (demo_stops_at_missing_extension
           (cpython_import script_library)
           my_framework_module N example_SuperTool example_run blank
           eq_refl eq_refl
           (script_loads_leave_alone script_library)
           (λ id h e, script_library_loads id h e)
           script_library_lacks_extension).
Defined.
